(** * test-image.py: a shallow embedding and its properties

    The script reads a credential from the environment, downloads one image,
    base64-encodes it, sends one multimodal message to a Letta agent and
    prints the answer.  The embedding below follows the script statement by
    statement.  Library calls that touch the outside world (the environment,
    the image server, the agent service) are answered by a [World]; library
    calls that are pure ([base64.standard_b64encode], [bytes.decode]) are
    given by executable definitions following RFC 4648 and RFC 3629, which is
    what the Python standard library implements. *)

From Stdlib Require Import List NArith ZArith Bool Lia.
From Stdlib.Strings Require Import String Ascii Byte.
Import ListNotations.

Local Open Scope N_scope.

(** ** Python strings *)

(** [len(x) == 0] for a sequence. *)
Definition is_nil {A : Type} (l : list A) : bool :=
  match l with
  | [] => true
  | _ => false
  end.

(** A Python [str] is a sequence of Unicode code points. *)
Definition pystr : Type := list N.

(** The string literals of the script are ASCII: one code point a character. *)
Definition py (s : string) : pystr := map Byte.to_N (list_byte_of_string s).

Fixpoint pystr_eqb (s t : pystr) : bool :=
  match s, t with
  | [], [] => true
  | a :: s', b :: t' => (a =? b) && pystr_eqb s' t'
  | _, _ => false
  end.

(** [str.encode("ascii")]: fails on a code point above 127. *)
Fixpoint encode_ascii (s : pystr) : option (list byte) :=
  match s with
  | [] => Some []
  | c :: s' =>
      if c <? 128 then
        match Byte.of_N c, encode_ascii s' with
        | Some b, Some bs => Some (b :: bs)
        | _, _ => None
        end
      else None
  end.

(** ** UTF-8 decoding, [bytes.decode("utf-8")] with strict error handling *)

Module Utf8.

Definition is_cont (b : byte) : bool :=
  N.land (Byte.to_N b) 192 =? 128.

Definition payload (b : byte) : N := N.land (Byte.to_N b) 63.

Definition is_surrogate (cp : N) : bool := (55296 <=? cp) && (cp <=? 57343).

(** [None] stands for [UnicodeDecodeError]. *)
Fixpoint decode (bs : list byte) : option pystr :=
  match bs with
  | [] => Some []
  | b0 :: t0 =>
      let n0 := Byte.to_N b0 in
      if n0 <? 128 then option_map (cons n0) (decode t0)
      else if n0 <? 194 then None
      else if n0 <? 224 then
        match t0 with
        | b1 :: t1 =>
            if is_cont b1 then
              let cp := N.lor (N.shiftl (N.land n0 31) 6) (payload b1) in
              option_map (cons cp) (decode t1)
            else None
        | _ => None
        end
      else if n0 <? 240 then
        match t0 with
        | b1 :: b2 :: t2 =>
            if is_cont b1 && is_cont b2 then
              let cp := N.lor (N.shiftl (N.land n0 15) 12)
                          (N.lor (N.shiftl (payload b1) 6) (payload b2)) in
              if (cp <? 2048) || is_surrogate cp then None
              else option_map (cons cp) (decode t2)
            else None
        | _ => None
        end
      else if n0 <? 245 then
        match t0 with
        | b1 :: b2 :: b3 :: t3 =>
            if is_cont b1 && is_cont b2 && is_cont b3 then
              let cp := N.lor (N.shiftl (N.land n0 7) 18)
                          (N.lor (N.shiftl (payload b1) 12)
                             (N.lor (N.shiftl (payload b2) 6) (payload b3))) in
              if (cp <? 65536) || (1114111 <? cp) then None
              else option_map (cons cp) (decode t3)
            else None
        | _ => None
        end
      else None
  end.

End Utf8.

(** ** Base64, standard alphabet with padding (RFC 4648, section 4) *)

Module Base64.

Definition alphabet : list byte :=
  list_byte_of_string
    "ABCDEFGHIJKLMNOPQRSTUVWXYZabcdefghijklmnopqrstuvwxyz0123456789+/".

(** The padding character, [=]. *)
Definition pad : byte := x3d.

(** Sextet to character. *)
Definition b2a (i : N) : byte := nth (N.to_nat i) alphabet pad.

Fixpoint index_of (c : byte) (tbl : list byte) (i : N) : option N :=
  match tbl with
  | [] => None
  | x :: tl => if Byte.eqb c x then Some i else index_of c tl (N.succ i)
  end.

(** Character to sextet; [None] outside the alphabet (the pad included). *)
Definition a2b (c : byte) : option N := index_of c alphabet 0.

(** The four sextets of a group of three octets. *)
Definition sextet1 (a : N) : N := N.shiftr a 2.
Definition sextet2 (a b : N) : N := N.lor (N.shiftl (N.land a 3) 4) (N.shiftr b 4).
Definition sextet3 (b c : N) : N := N.lor (N.shiftl (N.land b 15) 2) (N.shiftr c 6).
Definition sextet4 (c : N) : N := N.land c 63.

(** [base64.standard_b64encode]: three octets give four characters; a final
    group of one or two octets is zero-extended and padded with [=]. *)
Fixpoint encode (bs : list byte) : list byte :=
  match bs with
  | [] => []
  | [a] =>
      let a := Byte.to_N a in
      [b2a (sextet1 a); b2a (sextet2 a 0); pad; pad]
  | [a; b] =>
      let a := Byte.to_N a in
      let b := Byte.to_N b in
      [b2a (sextet1 a); b2a (sextet2 a b); b2a (sextet3 b 0); pad]
  | a :: b :: c :: rest =>
      let a := Byte.to_N a in
      let b := Byte.to_N b in
      let c := Byte.to_N c in
      b2a (sextet1 a) :: b2a (sextet2 a b) :: b2a (sextet3 b c)
        :: b2a (sextet4 c) :: encode rest
  end.

(** The low eight bits of a number, as a byte. *)
Definition octet (n : N) : byte :=
  match Byte.of_N (N.land n 255) with
  | Some b => b
  | None => x00
  end.

Definition octet1 (s1 s2 : N) : byte := octet (N.lor (N.shiftl s1 2) (N.shiftr s2 4)).
Definition octet2 (s2 s3 : N) : byte := octet (N.lor (N.shiftl s2 4) (N.shiftr s3 2)).
Definition octet3 (s3 s4 : N) : byte := octet (N.lor (N.shiftl s3 6) s4).

(** Decoding of padded base64 text: groups of four characters, padding only
    in the last group.  [None] stands for [binascii.Error]. *)
Fixpoint decode_bytes (cs : list byte) : option (list byte) :=
  match cs with
  | [] => Some []
  | c1 :: c2 :: c3 :: c4 :: rest =>
      match a2b c1, a2b c2 with
      | Some s1, Some s2 =>
          if Byte.eqb c3 pad then
            if Byte.eqb c4 pad && is_nil rest then Some [octet1 s1 s2] else None
          else
            match a2b c3 with
            | Some s3 =>
                if Byte.eqb c4 pad then
                  if is_nil rest then Some [octet1 s1 s2; octet2 s2 s3] else None
                else
                  match a2b c4 with
                  | Some s4 =>
                      option_map
                        (fun t => octet1 s1 s2 :: octet2 s2 s3 :: octet3 s3 s4 :: t)
                        (decode_bytes rest)
                  | None => None
                  end
            | None => None
            end
      | _, _ => None
      end
  | _ => None
  end.

(** Decoding of a [str]: the text must be ASCII, then it is decoded as bytes. *)
Definition decode (s : pystr) : option (list byte) :=
  match encode_ascii s with
  | Some cs => decode_bytes cs
  | None => None
  end.

End Base64.

(** ** Values, exceptions and library calls *)

Section Script.

(** The object returned by [client.agents.messages.create]; the script never
    looks inside it. *)
Context {Response : Type}.

(** The Python values the script handles. *)
#[warnings="-register-all"]
Inductive pyval : Type :=
| VNone
| VStr (s : pystr)
| VList (items : list pyval)
| VDict (entries : list (pystr * pyval))
| VResponse (r : Response).

(** Truth value testing, as [not] and [if] apply it. *)
Definition truthy (v : pyval) : bool :=
  match v with
  | VNone => false
  | VStr s => negb (is_nil s)
  | VList items => negb (is_nil items)
  | VDict entries => negb (is_nil entries)
  | VResponse _ => true
  end.

(** [d[key]] on a dict literal; [None] when the key is absent or the value is
    no dict. *)
Fixpoint lookup (key : pystr) (entries : list (pystr * pyval)) : option pyval :=
  match entries with
  | [] => None
  | (k, v) :: rest => if pystr_eqb k key then Some v else lookup key rest
  end.

Definition getitem (v : pyval) (key : pystr) : option pyval :=
  match v with
  | VDict entries => lookup key entries
  | _ => None
  end.

(** What a statement can raise.  [SystemExit] is what [exit(code)] raises;
    every other exception is named by its class. *)
Inductive exn : Type :=
| SystemExit (code : Z)
| Exception (class : string) (message : string).

(** The client object: it keeps the token it was built with. *)
Record Letta : Type := { client_token : pyval }.

(** What [httpx.get] returns; [content] is the body, whatever the status. *)
Record HttpResponse : Type := { status_code : N; content : list byte }.

(** The calls the script makes to builtins and libraries. *)
Inductive call : Type :=
| Call_os_getenv (name : pystr)
| Call_print (obj : pyval)
| Call_exit (code : Z)
| Call_Letta (token : pyval)
| Call_httpx_get (url : pystr)
| Call_standard_b64encode (s : list byte)
| Call_decode_utf8 (b : list byte)
| Call_messages_create (client : Letta) (agent_id : pystr) (messages : pyval).

(** The two calls that go over the network. *)
Definition is_http_get (c : call) : bool :=
  match c with
  | Call_httpx_get _ => true
  | _ => false
  end.

Definition is_api_call (c : call) : bool :=
  match c with
  | Call_messages_create _ _ _ => true
  | _ => false
  end.

Definition is_network_call (c : call) : bool := is_http_get c || is_api_call c.

(** Everything outside the script: the process environment, the image server
    and the agent service.  A network call either raises or returns. *)
Record World : Type := {
  os_environ : pystr -> option pystr;
  httpx_get_result : pystr -> exn + HttpResponse;
  messages_create_result : Letta -> pystr -> pyval -> exn + Response
}.

(** The type of what a call returns. *)
Definition ret_type (c : call) : Type :=
  match c with
  | Call_os_getenv _ => pyval
  | Call_print _ => unit
  | Call_exit _ => unit
  | Call_Letta _ => Letta
  | Call_httpx_get _ => HttpResponse
  | Call_standard_b64encode _ => list byte
  | Call_decode_utf8 _ => pystr
  | Call_messages_create _ _ _ => Response
  end.

(** What a call does in a world: it raises ([inl]) or returns ([inr]).
    - [os.getenv(name)] gives the value, or [None] when the variable is unset;
    - [exit(code)] raises [SystemExit(code)];
    - [Letta(token=token)] builds the client object, nothing is sent;
    - [b.decode("utf-8")] raises [UnicodeDecodeError] on ill-formed input. *)
Definition call_result (w : World) (c : call) : exn + ret_type c :=
  match c with
  | Call_os_getenv name =>
      inr (match os_environ w name with
           | Some s => VStr s
           | None => VNone
           end)
  | Call_print _ => inr tt
  | Call_exit code => inl (SystemExit code)
  | Call_Letta token => inr {| client_token := token |}
  | Call_httpx_get url => httpx_get_result w url
  | Call_standard_b64encode s => inr (Base64.encode s)
  | Call_decode_utf8 b =>
      match Utf8.decode b with
      | Some s => inr s
      | None => inl (Exception "UnicodeDecodeError" "invalid utf-8")
      end
  | Call_messages_create client agent messages =>
      messages_create_result w client agent messages
  end.

(** ** The monad of script statements

    A statement reads the world, appends the calls it makes to the trace and
    either returns a value or raises.  There is no handler: the script has no
    [try]. *)

Inductive result (A : Type) : Type :=
| Return (a : A)
| Raise (e : exn).

Arguments Return {A} a.
Arguments Raise {A} e.

Definition M (A : Type) : Type := World -> list call -> list call * result A.

Definition ret {A : Type} (a : A) : M A := fun _ tr => (tr, Return a).

Definition bind {A B : Type} (m : M A) (k : A -> M B) : M B :=
  fun w tr =>
    match m w tr with
    | (tr', Return a) => k a w tr'
    | (tr', Raise e) => (tr', Raise e)
    end.

(** Making a call: it is recorded, then it returns or raises. *)
Definition perform (c : call) : M (ret_type c) :=
  fun w tr =>
    (tr ++ [c],
     match call_result w c with
     | inl e => Raise e
     | inr v => Return v
     end).

Local Notation "x <- m ;; k" := (bind m (fun x => k))
  (at level 61, m at next level, right associativity).
Local Notation "m ;; k" := (bind m (fun _ => k))
  (at level 61, right associativity).

(** ** Builtins and library calls *)

Definition os_getenv (name : pystr) : M pyval := perform (Call_os_getenv name).

Definition print (obj : pyval) : M unit := perform (Call_print obj).

Definition exit (code : Z) : M unit := perform (Call_exit code).

Definition Letta_new (token : pyval) : M Letta := perform (Call_Letta token).

Definition httpx_get (url : pystr) : M HttpResponse := perform (Call_httpx_get url).

Definition standard_b64encode (s : list byte) : M (list byte) :=
  perform (Call_standard_b64encode s).

Definition decode_utf8 (b : list byte) : M pystr := perform (Call_decode_utf8 b).

Definition messages_create (client : Letta) (agent : pystr) (messages : pyval)
  : M Response :=
  perform (Call_messages_create client agent messages).

(** ** The script *)

Definition image_url : pystr :=
  py "https://upload.wikimedia.org/wikipedia/commons/a/a7/Camponotus_flavomarginatus_ant.jpg".

Definition agent_id : pystr := py "agent-bb780791-961a-4fa3-95ba-b681b6d508e6".

(** The [messages] argument of the API call, lines 18 to 36. *)
Definition messages (image_data : pystr) : pyval :=
  VList [
    VDict [
      (py "role", VStr (py "user"));
      (py "content", VList [
        VDict [
          (py "type", VStr (py "image"));
          (py "source", VDict [
            (py "type", VStr (py "base64"));
            (py "media_type", VStr (py "image/jpeg"));
            (py "data", VStr image_data)
          ])
        ];
        VDict [
          (py "type", VStr (py "text"));
          (py "text", VStr (py "Describe this image."))
        ]
      ])
    ]
  ].

Definition main : M unit :=
  token <- os_getenv (py "LETTA_API_KEY") ;;
  (if negb (truthy token) then
     print (VStr (py "Error: LETTA_API_KEY environment variable not set")) ;;
     exit 1
   else ret tt) ;;
  client <- Letta_new token ;;
  fetched <- httpx_get image_url ;;
  encoded <- standard_b64encode (content fetched) ;;
  image_data <- decode_utf8 encoded ;;
  response <- messages_create client agent_id (messages image_data) ;;
  print (VStr (py "Response:")) ;;
  print (VResponse response).

(** One run of the script in a world: the calls made, and how it ended. *)
Definition run (w : World) : list call * result unit := main w [].

Definition trace (w : World) : list call := fst (run w).

Definition outcome (w : World) : result unit := snd (run w).

(** The exit status of the interpreter: 0 after the last statement, the code
    of an uncaught [SystemExit], 1 after any other uncaught exception. *)
Definition exit_status (r : result unit) : Z :=
  match r with
  | Return _ => 0%Z
  | Raise (SystemExit code) => code
  | Raise (Exception _ _) => 1%Z
  end.

(** ** The call sequences of the script *)

Definition credential_name : pystr := py "LETTA_API_KEY".

Definition error_message : pystr :=
  py "Error: LETTA_API_KEY environment variable not set".

(** What [os.getenv] gives for the credential in a world. *)
Definition credential (w : World) : pyval :=
  match os_environ w credential_name with
  | Some s => VStr s
  | None => VNone
  end.

(** Base64 text as a [str]: one code point a character. *)
Definition b64_text (body : list byte) : pystr := map Byte.to_N (Base64.encode body).

(** The calls of a run stopped by the credential check. *)
Definition exit_calls : list call :=
  [Call_os_getenv credential_name; Call_print (VStr error_message); Call_exit 1].

(** The calls up to the image fetch. *)
Definition fetch_calls (token : pyval) : list call :=
  [Call_os_getenv credential_name; Call_Letta token; Call_httpx_get image_url].

(** The calls up to the API call, for fetched bytes [body]. *)
Definition api_calls (token : pyval) (body : list byte) : list call :=
  fetch_calls token ++
  [Call_standard_b64encode body;
   Call_decode_utf8 (Base64.encode body);
   Call_messages_create {| client_token := token |} agent_id (messages (b64_text body))].

(** The calls of a run that reaches its last statement. *)
Definition all_calls (token : pyval) (body : list byte) (response : Response)
  : list call :=
  api_calls token body ++
  [Call_print (VStr (py "Response:")); Call_print (VResponse response)].

(** A run, case by case on what the world answers. *)
Definition run_by_cases (w : World) : list call * result unit :=
  let token := credential w in
  if negb (truthy token) then (exit_calls, Raise (SystemExit 1))
  else
    match httpx_get_result w image_url with
    | inl e => (fetch_calls token, Raise e)
    | inr fetched =>
        let body := content fetched in
        match messages_create_result w {| client_token := token |} agent_id
                (messages (b64_text body)) with
        | inl e => (api_calls token body, Raise e)
        | inr response => (all_calls token body response, Return tt)
        end
    end.

(** ** Reading a trace *)

(** The requests sent to the agent service: client, agent and messages. *)
Fixpoint api_requests (tr : list call) : list (Letta * pystr * pyval) :=
  match tr with
  | [] => []
  | Call_messages_create c a m :: rest => (c, a, m) :: api_requests rest
  | _ :: rest => api_requests rest
  end.

(** The URLs fetched with GET. *)
Fixpoint http_gets (tr : list call) : list pystr :=
  match tr with
  | [] => []
  | Call_httpx_get url :: rest => url :: http_gets rest
  | _ :: rest => http_gets rest
  end.

(** The objects printed. *)
Fixpoint printed (tr : list call) : list pyval :=
  match tr with
  | [] => []
  | Call_print obj :: rest => obj :: printed rest
  | _ :: rest => printed rest
  end.

(** ** Reading a payload *)

(** The content blocks of a message. *)
Definition content_blocks (message : pyval) : list pyval :=
  match getitem message (py "content") with
  | Some (VList blocks) => blocks
  | _ => []
  end.

(** Whether a content block has the given type tag. *)
Definition block_has_type (tag : pystr) (block : pyval) : bool :=
  match getitem block (py "type") with
  | Some (VStr t) => pystr_eqb t tag
  | _ => false
  end.

(** The data string of an image block. *)
Definition image_block_data (block : pyval) : option pystr :=
  match getitem block (py "source") with
  | Some source =>
      match getitem source (py "data") with
      | Some (VStr d) => Some d
      | _ => None
      end
  | None => None
  end.

(** The data string of the first content block of the first message. *)
Definition payload_image_data (msgs : pyval) : option pystr :=
  match msgs with
  | VList (message :: _) =>
      match content_blocks message with
      | block :: _ => image_block_data block
      | [] => None
      end
  | _ => None
  end.

End Script.

Arguments pyval : clear implicits.
Arguments call : clear implicits.
Arguments Letta : clear implicits.
Arguments World : clear implicits.
Arguments Return {A} a.
Arguments Raise {A} e.

(** ** Checking a property on every number below a bound *)

Definition N_below (k : nat) : list N := map N.of_nat (seq 0 k).

Definition all_below (k : nat) (p : N -> bool) : bool := forallb p (N_below k).

(** ** Sample worlds

    Concrete worlds on which the theorems below are instantiated.  The agent
    service answers with a text here. *)

Definition only_credential (value : pystr) (name : pystr) : option pystr :=
  if pystr_eqb name (py "LETTA_API_KEY") then Some value else None.

(** The first bytes of a JPEG file. *)
Definition jpeg_head : list byte := [xff; xd8; xff; xe0; x00].

Definition connect_error : exn := Exception "httpx.ConnectError" "connection refused".

Definition api_error : exn := Exception "letta_client.core.ApiError" "status_code: 404".

(** No credential in the environment. *)
Definition world_unset : World string := {|
  os_environ := fun _ => None;
  httpx_get_result := fun _ => inr {| status_code := 200; content := jpeg_head |};
  messages_create_result := fun _ _ _ => inr "reply"%string
|}.

(** The credential is set to the empty string. *)
Definition world_empty : World string := {|
  os_environ := only_credential (py "");
  httpx_get_result := fun _ => inr {| status_code := 200; content := jpeg_head |};
  messages_create_result := fun _ _ _ => inr "reply"%string
|}.

(** Everything answers. *)
Definition world_ok : World string := {|
  os_environ := only_credential (py "sk-let-test");
  httpx_get_result := fun _ => inr {| status_code := 200; content := jpeg_head |};
  messages_create_result := fun _ _ _ => inr "reply"%string
|}.

(** The same credential and image bytes, another status and another answer. *)
Definition world_ok_too : World string := {|
  os_environ := only_credential (py "sk-let-test");
  httpx_get_result := fun _ => inr {| status_code := 203; content := jpeg_head |};
  messages_create_result := fun _ _ _ => inr "another reply"%string
|}.

(** As [world_ok] where the script looks; other variables are set, other URLs
    cannot be reached and other agents are unknown. *)
Definition world_busy : World string := {|
  os_environ := fun name =>
    if pystr_eqb name (py "LETTA_API_KEY") then Some (py "sk-let-test")
    else Some (py "something else");
  httpx_get_result := fun url =>
    if pystr_eqb url image_url
    then inr {| status_code := 200; content := jpeg_head |}
    else inl connect_error;
  messages_create_result := fun _ agent _ =>
    if pystr_eqb agent agent_id then inr "reply"%string else inl api_error
|}.

(** The image server cannot be reached. *)
Definition world_fetch_fails : World string := {|
  os_environ := only_credential (py "sk-let-test");
  httpx_get_result := fun _ => inl connect_error;
  messages_create_result := fun _ _ _ => inr "reply"%string
|}.

(** The agent service rejects the request. *)
Definition world_api_fails : World string := {|
  os_environ := only_credential (py "sk-let-test");
  httpx_get_result := fun _ => inr {| status_code := 200; content := jpeg_head |};
  messages_create_result := fun _ _ _ => inl api_error
|}.

(** The request [world_ok] sends. *)
Definition sample_client : Letta string := {| client_token := VStr (py "sk-let-test") |}.

Definition sample_messages : pyval string := messages (b64_text jpeg_head).

(** * Properties of the library functions *)

Lemma all_below_spec (k : nat) (p : N -> bool) :
  all_below k p = true -> forall n, n < N.of_nat k -> p n = true.
Proof.
  unfold all_below, N_below. intros Hall n Hn.
  rewrite forallb_forall in Hall. apply Hall.
  apply in_map_iff. exists (N.to_nat n). split.
  - apply N2Nat.id.
  - apply in_seq. lia.
Qed.

Lemma byte_lt_256 (x : byte) : Byte.to_N x < N.of_nat 256.
Proof.
  pose proof (Byte.to_N_bounded x). lia.
Qed.

Lemma list_ind3 {A : Type} (P : list A -> Prop) :
  P [] ->
  (forall a, P [a]) ->
  (forall a b, P [a; b]) ->
  (forall a b c l, P l -> P (a :: b :: c :: l)) ->
  forall l, P l.
Proof.
  intros H0 H1 H2 H3.
  assert (Hall : forall l, P l /\ (forall a, P (a :: l)) /\ (forall a b, P (a :: b :: l))).
  { induction l as [|x l [IH0 [IH1 IH2]]].
    - repeat split; auto.
    - repeat split; auto. }
  intro l. apply Hall.
Qed.

Module Base64Facts.
Import Base64.

(** The test vectors of RFC 4648, section 10. *)
Example encode_f : encode (list_byte_of_string "f") = list_byte_of_string "Zg==".
Proof. reflexivity. Qed.

Example encode_fo : encode (list_byte_of_string "fo") = list_byte_of_string "Zm8=".
Proof. reflexivity. Qed.

Example encode_foo : encode (list_byte_of_string "foo") = list_byte_of_string "Zm9v".
Proof. reflexivity. Qed.

Example encode_foob : encode (list_byte_of_string "foob") = list_byte_of_string "Zm9vYg==".
Proof. reflexivity. Qed.

Example encode_fooba : encode (list_byte_of_string "fooba") = list_byte_of_string "Zm9vYmE=".
Proof. reflexivity. Qed.

Example encode_foobar : encode (list_byte_of_string "foobar") = list_byte_of_string "Zm9vYmFy".
Proof. reflexivity. Qed.

Example decode_foobar : decode (py "Zm9vYmFy") = Some (list_byte_of_string "foobar").
Proof. reflexivity. Qed.

Example decode_not_padded : decode (py "Zg") = None.
Proof. reflexivity. Qed.

Example decode_not_ascii : decode [8364; 65; 65; 65] = None.
Proof. reflexivity. Qed.

Lemma a2b_b2a (i : N) : i < 64 -> a2b (b2a i) = Some i.
Proof.
  intro Hi.
  assert (Hc : match a2b (b2a i) with Some j => j =? i | None => false end = true).
  { apply (all_below_spec 64
             (fun i => match a2b (b2a i) with Some j => j =? i | None => false end)).
    - vm_compute. reflexivity.
    - exact Hi. }
  destruct (a2b (b2a i)) as [j|]; [|discriminate].
  apply N.eqb_eq in Hc. now subst.
Qed.

Lemma b2a_not_pad (i : N) : i < 64 -> Byte.eqb (b2a i) pad = false.
Proof.
  intro Hi.
  apply (all_below_spec 64 (fun i => negb (Byte.eqb (b2a i) pad))) in Hi.
  - now apply negb_true_iff in Hi.
  - vm_compute. reflexivity.
Qed.

Lemma b2a_ascii (i : N) : Byte.to_N (b2a i) < 128.
Proof.
  unfold b2a.
  destruct (nth_in_or_default (N.to_nat i) alphabet pad) as [Hin | Hd].
  - assert (Hall : forallb (fun c => Byte.to_N c <? 128) alphabet = true)
      by (vm_compute; reflexivity).
    rewrite forallb_forall in Hall. apply N.ltb_lt. now apply Hall.
  - rewrite Hd. vm_compute. reflexivity.
Qed.

Lemma sextet1_lt (x : byte) : sextet1 (Byte.to_N x) < 64.
Proof.
  apply N.ltb_lt.
  apply (all_below_spec 256 (fun a => sextet1 a <? 64)).
  - vm_compute. reflexivity.
  - apply byte_lt_256.
Qed.

Lemma sextet2_lt_N (a b : N) : a < 256 -> b < 256 -> sextet2 a b < 64.
Proof.
  intros Ha Hb. apply N.ltb_lt.
  apply (all_below_spec 256 (fun b => sextet2 a b <? 64)); [|exact Hb].
  apply (all_below_spec 256
           (fun a => all_below 256 (fun b => sextet2 a b <? 64))); [|exact Ha].
  vm_compute. reflexivity.
Qed.

Lemma sextet3_lt_N (b c : N) : b < 256 -> c < 256 -> sextet3 b c < 64.
Proof.
  intros Hb Hc. apply N.ltb_lt.
  apply (all_below_spec 256 (fun c => sextet3 b c <? 64)); [|exact Hc].
  apply (all_below_spec 256
           (fun b => all_below 256 (fun c => sextet3 b c <? 64))); [|exact Hb].
  vm_compute. reflexivity.
Qed.

Lemma sextet4_lt (x : byte) : sextet4 (Byte.to_N x) < 64.
Proof.
  apply N.ltb_lt.
  apply (all_below_spec 256 (fun c => sextet4 c <? 64)).
  - vm_compute. reflexivity.
  - apply byte_lt_256.
Qed.

(** The first octet comes back from the first two sextets. *)
Lemma join1_N (a b : N) :
  a < 256 -> b < 256 ->
  N.land (N.lor (N.shiftl (sextet1 a) 2) (N.shiftr (sextet2 a b) 4)) 255 = a.
Proof.
  intros Ha Hb. apply N.eqb_eq.
  apply (all_below_spec 256
    (fun b => N.land (N.lor (N.shiftl (sextet1 a) 2) (N.shiftr (sextet2 a b) 4)) 255 =? a));
    [|exact Hb].
  apply (all_below_spec 256
    (fun a => all_below 256
      (fun b => N.land (N.lor (N.shiftl (sextet1 a) 2) (N.shiftr (sextet2 a b) 4)) 255 =? a)));
    [|exact Ha].
  vm_compute. reflexivity.
Qed.

(** The high nibble of the second octet does not depend on the first octet. *)
Lemma join2_high_N (a b : N) :
  a < 256 -> b < 256 ->
  N.land (N.shiftl (sextet2 a b) 4) 255 = N.land (N.shiftl (sextet2 0 b) 4) 255.
Proof.
  intros Ha Hb. apply N.eqb_eq.
  apply (all_below_spec 256
    (fun b => N.land (N.shiftl (sextet2 a b) 4) 255
              =? N.land (N.shiftl (sextet2 0 b) 4) 255)); [|exact Hb].
  apply (all_below_spec 256
    (fun a => all_below 256
      (fun b => N.land (N.shiftl (sextet2 a b) 4) 255
                =? N.land (N.shiftl (sextet2 0 b) 4) 255))); [|exact Ha].
  vm_compute. reflexivity.
Qed.

(** Its low nibble does not depend on the third octet. *)
Lemma join2_low_N (b c : N) :
  b < 256 -> c < 256 ->
  N.shiftr (sextet3 b c) 2 = N.shiftr (sextet3 b 0) 2.
Proof.
  intros Hb Hc. apply N.eqb_eq.
  apply (all_below_spec 256
    (fun c => N.shiftr (sextet3 b c) 2 =? N.shiftr (sextet3 b 0) 2)); [|exact Hc].
  apply (all_below_spec 256
    (fun b => all_below 256
      (fun c => N.shiftr (sextet3 b c) 2 =? N.shiftr (sextet3 b 0) 2))); [|exact Hb].
  vm_compute. reflexivity.
Qed.

Lemma join2_self_N (b : N) :
  b < 256 ->
  N.land (N.lor (N.shiftl (sextet2 0 b) 4) (N.shiftr (sextet3 b 0) 2)) 255 = b.
Proof.
  intros Hb. apply N.eqb_eq.
  apply (all_below_spec 256
    (fun b => N.land (N.lor (N.shiftl (sextet2 0 b) 4) (N.shiftr (sextet3 b 0) 2)) 255 =? b));
    [|exact Hb].
  vm_compute. reflexivity.
Qed.

Lemma join2_N (a b c : N) :
  a < 256 -> b < 256 -> c < 256 ->
  N.land (N.lor (N.shiftl (sextet2 a b) 4) (N.shiftr (sextet3 b c) 2)) 255 = b.
Proof.
  intros Ha Hb Hc.
  rewrite N.land_lor_distr_l, (join2_high_N a b Ha Hb), (join2_low_N b c Hb Hc).
  rewrite <- N.land_lor_distr_l. now apply join2_self_N.
Qed.

Lemma join3_N (b c : N) :
  b < 256 -> c < 256 ->
  N.land (N.lor (N.shiftl (sextet3 b c) 6) (sextet4 c)) 255 = c.
Proof.
  intros Hb Hc. apply N.eqb_eq.
  apply (all_below_spec 256
    (fun c => N.land (N.lor (N.shiftl (sextet3 b c) 6) (sextet4 c)) 255 =? c)); [|exact Hc].
  apply (all_below_spec 256
    (fun b => all_below 256
      (fun c => N.land (N.lor (N.shiftl (sextet3 b c) 6) (sextet4 c)) 255 =? c)));
    [|exact Hb].
  vm_compute. reflexivity.
Qed.

Lemma byte_lt (x : byte) : Byte.to_N x < 256.
Proof. exact (byte_lt_256 x). Qed.

Lemma sextet2_lt (x y : byte) : sextet2 (Byte.to_N x) (Byte.to_N y) < 64.
Proof. apply sextet2_lt_N; apply byte_lt. Qed.

Lemma sextet2_last_lt (x : byte) : sextet2 (Byte.to_N x) 0 < 64.
Proof. apply sextet2_lt_N; [apply byte_lt | reflexivity]. Qed.

Lemma sextet3_lt (y z : byte) : sextet3 (Byte.to_N y) (Byte.to_N z) < 64.
Proof. apply sextet3_lt_N; apply byte_lt. Qed.

Lemma sextet3_last_lt (y : byte) : sextet3 (Byte.to_N y) 0 < 64.
Proof. apply sextet3_lt_N; [apply byte_lt | reflexivity]. Qed.

Lemma octet_of_byte (n : N) (x : byte) : N.land n 255 = Byte.to_N x -> octet n = x.
Proof.
  intro H. unfold octet. now rewrite H, Byte.of_to_N.
Qed.

Lemma octet1_sextets (x y : byte) :
  octet1 (sextet1 (Byte.to_N x)) (sextet2 (Byte.to_N x) (Byte.to_N y)) = x.
Proof. apply octet_of_byte, join1_N; apply byte_lt. Qed.

Lemma octet1_sextets_last (x : byte) :
  octet1 (sextet1 (Byte.to_N x)) (sextet2 (Byte.to_N x) 0) = x.
Proof. apply octet_of_byte, join1_N; [apply byte_lt | reflexivity]. Qed.

Lemma octet2_sextets (x y z : byte) :
  octet2 (sextet2 (Byte.to_N x) (Byte.to_N y)) (sextet3 (Byte.to_N y) (Byte.to_N z)) = y.
Proof. apply octet_of_byte, join2_N; apply byte_lt. Qed.

Lemma octet2_sextets_last (x y : byte) :
  octet2 (sextet2 (Byte.to_N x) (Byte.to_N y)) (sextet3 (Byte.to_N y) 0) = y.
Proof. apply octet_of_byte, join2_N; try apply byte_lt. reflexivity. Qed.

Lemma octet3_sextets (y z : byte) :
  octet3 (sextet3 (Byte.to_N y) (Byte.to_N z)) (sextet4 (Byte.to_N z)) = z.
Proof. apply octet_of_byte, join3_N; apply byte_lt. Qed.

(** How [decode_bytes] reads one group of four characters. *)
Lemma decode_bytes_group (c1 c2 c3 c4 : byte) (rest : list byte) :
  decode_bytes (c1 :: c2 :: c3 :: c4 :: rest) =
  match a2b c1, a2b c2 with
  | Some s1, Some s2 =>
      if Byte.eqb c3 pad then
        if Byte.eqb c4 pad && is_nil rest then Some [octet1 s1 s2] else None
      else
        match a2b c3 with
        | Some s3 =>
            if Byte.eqb c4 pad then
              if is_nil rest then Some [octet1 s1 s2; octet2 s2 s3] else None
            else
              match a2b c4 with
              | Some s4 =>
                  option_map
                    (fun t => octet1 s1 s2 :: octet2 s2 s3 :: octet3 s3 s4 :: t)
                    (decode_bytes rest)
              | None => None
              end
        | None => None
        end
  | _, _ => None
  end.
Proof. reflexivity. Qed.

Lemma pad_eqb : Byte.eqb pad pad = true.
Proof. reflexivity. Qed.

(** Decoding undoes encoding, on bytes. *)
Lemma decode_bytes_encode (bs : list byte) : decode_bytes (encode bs) = Some bs.
Proof.
  induction bs as [| x | x y | x y z rest IH] using list_ind3.
  - reflexivity.
  - cbn [encode]. rewrite decode_bytes_group.
    rewrite (a2b_b2a _ (sextet1_lt x)), (a2b_b2a _ (sextet2_last_lt x)).
    rewrite pad_eqb. cbn [is_nil andb].
    now rewrite octet1_sextets_last.
  - cbn [encode]. rewrite decode_bytes_group.
    rewrite (a2b_b2a _ (sextet1_lt x)), (a2b_b2a _ (sextet2_lt x y)).
    rewrite (b2a_not_pad _ (sextet3_last_lt y)), (a2b_b2a _ (sextet3_last_lt y)).
    rewrite pad_eqb. cbn [is_nil].
    now rewrite octet1_sextets, octet2_sextets_last.
  - cbn [encode]. rewrite decode_bytes_group.
    rewrite (a2b_b2a _ (sextet1_lt x)), (a2b_b2a _ (sextet2_lt x y)).
    rewrite (b2a_not_pad _ (sextet3_lt y z)), (a2b_b2a _ (sextet3_lt y z)).
    rewrite (b2a_not_pad _ (sextet4_lt z)), (a2b_b2a _ (sextet4_lt z)).
    rewrite IH. cbn [option_map].
    now rewrite octet1_sextets, octet2_sextets, octet3_sextets.
Qed.

(** Encoded text is ASCII. *)
Lemma encode_ascii_only (bs : list byte) :
  Forall (fun c => Byte.to_N c < 128) (encode bs).
Proof.
  assert (Hpad : Byte.to_N pad < 128) by reflexivity.
  induction bs as [| x | x y | x y z rest IH] using list_ind3; cbn [encode];
    repeat (apply Forall_cons; [first [apply b2a_ascii | exact Hpad] |]);
    first [apply Forall_nil | exact IH].
Qed.

(** The number of characters of encoded text. *)
Lemma encode_length (bs : list byte) :
  List.length (encode bs) = (4 * ((List.length bs + 2) / 3))%nat.
Proof.
  induction bs as [| x | x y | x y z rest IH] using list_ind3.
  - reflexivity.
  - reflexivity.
  - reflexivity.
  - cbn [encode List.length]. rewrite IH.
    replace (S (S (S (List.length rest))) + 2)%nat
      with (List.length rest + 2 + 1 * 3)%nat by lia.
    rewrite Nat.div_add by discriminate. lia.
Qed.

(** Encoded text is made of alphabet characters and the pad. *)
Lemma encode_chars (bs : list byte) :
  Forall (fun c => In c (alphabet ++ [pad])) (encode bs).
Proof.
  assert (Hpad : In pad (alphabet ++ [pad])) by (apply in_or_app; right; now left).
  assert (Hb2a : forall i, In (b2a i) (alphabet ++ [pad])).
  { intro i. unfold b2a.
    destruct (nth_in_or_default (N.to_nat i) alphabet pad) as [Hin | ->].
    - apply in_or_app. now left.
    - exact Hpad. }
  induction bs as [| x | x y | x y z rest IH] using list_ind3; cbn [encode];
    repeat (apply Forall_cons; [first [apply Hb2a | exact Hpad] |]);
    first [apply Forall_nil | exact IH].
Qed.

End Base64Facts.

(** UTF-8: the euro sign, an overlong slash, a surrogate, a cut sequence. *)
Example utf8_euro : Utf8.decode [xe2; x82; xac] = Some [8364].
Proof. reflexivity. Qed.

Example utf8_overlong : Utf8.decode [xc0; xaf] = None.
Proof. reflexivity. Qed.

Example utf8_surrogate : Utf8.decode [xed; xa0; x80] = None.
Proof. reflexivity. Qed.

Example utf8_truncated : Utf8.decode [x41; xe2; x82] = None.
Proof. reflexivity. Qed.

(** ASCII bytes decode, as UTF-8, to their own values. *)
Lemma utf8_decode_ascii (bs : list byte) :
  Forall (fun c => Byte.to_N c < 128) bs ->
  Utf8.decode bs = Some (map Byte.to_N bs).
Proof.
  induction 1 as [| c bs Hc _ IH].
  - reflexivity.
  - cbn [Utf8.decode map]. apply N.ltb_lt in Hc. rewrite Hc, IH. reflexivity.
Qed.

(** ASCII text encodes, as ASCII, to the bytes it came from. *)
Lemma encode_ascii_of_bytes (bs : list byte) :
  Forall (fun c => Byte.to_N c < 128) bs ->
  encode_ascii (map Byte.to_N bs) = Some bs.
Proof.
  induction 1 as [| c bs Hc _ IH].
  - reflexivity.
  - cbn [encode_ascii map]. apply N.ltb_lt in Hc.
    rewrite Hc, Byte.of_to_N, IH. reflexivity.
Qed.

(** The text the script puts in the payload for fetched bytes [bs]. *)
Lemma utf8_decode_b64 (bs : list byte) :
  Utf8.decode (Base64.encode bs) = Some (map Byte.to_N (Base64.encode bs)).
Proof. apply utf8_decode_ascii, Base64Facts.encode_ascii_only. Qed.

Lemma b64_text_roundtrip (bs : list byte) :
  Base64.decode (map Byte.to_N (Base64.encode bs)) = Some bs.
Proof.
  unfold Base64.decode.
  rewrite encode_ascii_of_bytes by apply Base64Facts.encode_ascii_only.
  apply Base64Facts.decode_bytes_encode.
Qed.

(** * Properties of the script *)

Section ScriptProperties.

Context {Response : Type}.

Lemma bind_perform_return {B : Type} (w : World Response) (tr : list (call Response)) (c : call Response)
    (v : ret_type c) (k : ret_type c -> M B) :
  call_result w c = inr v ->
  bind (perform c) k w tr = k v w (tr ++ [c]).
Proof.
  intro H. unfold bind, perform. now rewrite H.
Qed.

Lemma bind_perform_raise {B : Type} (w : World Response) (tr : list (call Response)) (c : call Response)
    (e : exn) (k : ret_type c -> M B) :
  call_result w c = inl e ->
  bind (perform c) k w tr = (tr ++ [c], Raise e).
Proof.
  intro H. unfold bind, perform. now rewrite H.
Qed.

Lemma perform_return (w : World Response) (tr : list (call Response)) (c : call Response) (v : ret_type c) :
  call_result w c = inr v ->
  perform c w tr = (tr ++ [c], Return v).
Proof.
  intro H. unfold perform. now rewrite H.
Qed.

(** Every run is one of the four cases of [run_by_cases]. *)
Lemma run_eq (w : World Response) : run w = run_by_cases w.
Proof.
  unfold run, run_by_cases, main.
  unfold os_getenv, print, exit, Letta_new, httpx_get, standard_b64encode,
    decode_utf8, messages_create.
  rewrite (bind_perform_return w _ (Call_os_getenv (py "LETTA_API_KEY")) (credential w))
    by reflexivity.
  destruct (negb (truthy (credential w))) eqn:Htok.
  - unfold bind at 1.
    rewrite (bind_perform_return w _ (Call_print (VStr error_message)) tt) by reflexivity.
    unfold perform. reflexivity.
  - unfold bind at 1. unfold ret at 1.
    rewrite (bind_perform_return w _ (Call_Letta (credential w))
               {| client_token := credential w |}) by reflexivity.
    destruct (httpx_get_result w image_url) as [e | fetched] eqn:Hget.
    + now rewrite (bind_perform_raise w _ (Call_httpx_get image_url) e).
    + rewrite (bind_perform_return w _ (Call_httpx_get image_url) fetched) by exact Hget.
      rewrite (bind_perform_return w _ (Call_standard_b64encode (content fetched))
                 (Base64.encode (content fetched))) by reflexivity.
      rewrite (bind_perform_return w _ (Call_decode_utf8 (Base64.encode (content fetched)))
                 (b64_text (content fetched)))
        by (cbn [call_result]; now rewrite utf8_decode_b64).
      cbv zeta.
      destruct (messages_create_result w {| client_token := credential w |} agent_id
                  (messages (b64_text (content fetched)))) as [e | response] eqn:Hapi.
      * now rewrite (bind_perform_raise w _ (Call_messages_create _ _ _) e) by exact Hapi.
      * rewrite (bind_perform_return w _ (Call_messages_create _ _ _) response) by exact Hapi.
        rewrite (bind_perform_return w _ (Call_print (VStr (py "Response:"))) tt)
          by reflexivity.
        now rewrite (perform_return w _ (Call_print (VResponse response)) tt)
          by reflexivity.
Qed.

Ltac by_cases w :=
  unfold trace, outcome; rewrite (run_eq w); unfold run_by_cases;
  destruct (truthy (credential w)) eqn:?; cbn [negb];
  [ destruct (httpx_get_result w image_url) as [?e | ?fetched] eqn:?;
    [ | cbv zeta;
        match goal with
        | |- context [messages_create_result w ?c ?a ?m] =>
            destruct (messages_create_result w c a m) as [?e | ?response] eqn:?
        end ]
  | ];
  cbn [fst snd];
  unfold all_calls, api_calls, fetch_calls, exit_calls; cbn [app].

Ltac in_cases :=
  repeat match goal with
         | H : In _ (_ :: _) |- _ => destruct H as [H | H]
         | H : In _ [] |- _ => destruct H
         end.

(** Where an API call of a run comes from. *)
Lemma api_call_in_trace (w : World Response) (client : Letta Response)
    (agent : pystr) (msgs : pyval Response) :
  In (Call_messages_create client agent msgs) (trace w) ->
  exists fetched,
    truthy (credential w) = true /\
    httpx_get_result w image_url = inr fetched /\
    client = {| client_token := credential w |} /\
    agent = agent_id /\
    msgs = messages (b64_text (content fetched)).
Proof.
  by_cases w; intro H; in_cases; try discriminate;
    injection H as <- <- <-; exists fetched; auto.
Qed.

Lemma payload_image_data_messages (data : pystr) :
  payload_image_data (messages (Response := Response) data) = Some data.
Proof. reflexivity. Qed.

Lemma truthy_credential (w : World Response) (token : pystr) :
  os_environ w (py "LETTA_API_KEY") = Some token -> token <> [] ->
  truthy (credential w) = true.
Proof.
  intros H Hne. unfold credential, credential_name. rewrite H.
  destruct token; [contradiction | reflexivity].
Qed.

(** C1: if [LETTA_API_KEY] is unset, the script prints the error message and
    ends with a non-zero exit status, and no network call is made: no HTTP GET
    and no API call. *)
Theorem unset_credential_exits (w : World Response) :
  os_environ w (py "LETTA_API_KEY") = None ->
  printed (trace w) = [VStr (py "Error: LETTA_API_KEY environment variable not set")] /\
  outcome w = Raise (SystemExit 1) /\
  exit_status (outcome w) <> 0%Z /\
  existsb is_network_call (trace w) = false /\
  http_gets (trace w) = [] /\
  api_requests (trace w) = [].
Proof.
  intro H.
  assert (Hc : truthy (credential w) = false)
    by (unfold credential, credential_name; now rewrite H).
  by_cases w; try congruence.
  repeat split. cbn [exit_status]. discriminate.
Qed.

(** C2: whatever bytes the image fetch returns, base64-decoding the data
    string of the payload's image block gives exactly those bytes. *)
Theorem payload_data_decodes_to_fetched (w : World Response)
    (fetched : HttpResponse) (client : Letta Response) (agent : pystr)
    (msgs : pyval Response) :
  httpx_get_result w image_url = inr fetched ->
  In (Call_messages_create client agent msgs) (trace w) ->
  exists data,
    payload_image_data msgs = Some data /\
    Base64.decode data = Some (content fetched).
Proof.
  intros Hget Hin.
  destruct (api_call_in_trace w client agent msgs Hin)
    as [fetched' [_ [Hget' [_ [_ ->]]]]].
  rewrite Hget in Hget'. injection Hget' as <-.
  exists (b64_text (content fetched)). split.
  - apply payload_image_data_messages.
  - apply b64_text_roundtrip.
Qed.

(** C3: in every run that reaches the API call, the content list of the
    message has exactly two blocks, one image block and one text block, the
    image block first. *)
Theorem payload_image_then_text (w : World Response) (client : Letta Response)
    (agent : pystr) (msgs : pyval Response) :
  In (Call_messages_create client agent msgs) (trace w) ->
  exists message image_block text_block,
    msgs = VList [message] /\
    content_blocks message = [image_block; text_block] /\
    block_has_type (py "image") image_block = true /\
    block_has_type (py "text") text_block = true /\
    List.length (filter (block_has_type (py "image")) (content_blocks message)) = 1%nat /\
    List.length (filter (block_has_type (py "text")) (content_blocks message)) = 1%nat.
Proof.
  intro Hin.
  destruct (api_call_in_trace w client agent msgs Hin) as [fetched [_ [_ [_ [_ ->]]]]].
  unfold messages. do 3 eexists.
  split; [reflexivity|]. split; [reflexivity|].
  repeat split.
Qed.

(** C4: the API call always has the same shape: one message with role
    [user], whose content is an image block with a base64 source of media
    type [image/jpeg] followed by a text block, sent to one fixed agent. *)
Theorem api_call_shape (w : World Response) (client : Letta Response)
    (agent : pystr) (msgs : pyval Response) :
  In (Call_messages_create client agent msgs) (trace w) ->
  agent = py "agent-bb780791-961a-4fa3-95ba-b681b6d508e6" /\
  exists data text,
    msgs =
    VList [
      VDict [
        (py "role", VStr (py "user"));
        (py "content", VList [
          VDict [
            (py "type", VStr (py "image"));
            (py "source", VDict [
              (py "type", VStr (py "base64"));
              (py "media_type", VStr (py "image/jpeg"));
              (py "data", VStr data)
            ])
          ];
          VDict [
            (py "type", VStr (py "text"));
            (py "text", VStr text)
          ]
        ])
      ]
    ].
Proof.
  intro Hin.
  destruct (api_call_in_trace w client agent msgs Hin) as [fetched [_ [_ [_ [-> ->]]]]].
  split; [reflexivity|].
  exists (b64_text (content fetched)), (py "Describe this image.").
  reflexivity.
Qed.

(** C5: in every run that passes the credential check there is exactly one
    HTTP GET, and it goes to the fixed image URL. *)
Theorem one_get_of_fixed_url (w : World Response) (token : pystr) :
  os_environ w (py "LETTA_API_KEY") = Some token ->
  token <> [] ->
  http_gets (trace w) =
  [py "https://upload.wikimedia.org/wikipedia/commons/a/a7/Camponotus_flavomarginatus_ant.jpg"].
Proof.
  intros H Hne. pose proof (truthy_credential w token H Hne) as Hc.
  by_cases w; try congruence; reflexivity.
Qed.

(** C6: in every run in which the API call returns a response object, that
    object is printed to standard output; it is the last thing the run does. *)
Theorem response_is_printed (w : World Response) (client : Letta Response)
    (agent : pystr) (msgs : pyval Response) (response : Response) :
  In (Call_messages_create client agent msgs) (trace w) ->
  messages_create_result w client agent msgs = inr response ->
  printed (trace w) = [VStr (py "Response:"); VResponse response] /\
  outcome w = Return tt /\
  exists before, trace w = before ++ [Call_print (VResponse response)].
Proof.
  intros Hin Hres.
  destruct (api_call_in_trace w client agent msgs Hin)
    as [fetched [Hc [Hget [-> [-> ->]]]]].
  unfold trace, outcome. rewrite (run_eq w). unfold run_by_cases.
  rewrite Hc, Hget. cbv zeta. rewrite Hres. cbn [negb fst snd].
  split; [reflexivity|]. split; [reflexivity|].
  unfold all_calls.
  exists (api_calls (credential w) (content fetched) ++ [Call_print (VStr (py "Response:"))]).
  now rewrite <- app_assoc.
Qed.

Ltac ends_with_last :=
  first [ refine (ex_intro _ [] eq_refl)
        | refine (ex_intro _ [_] eq_refl)
        | refine (ex_intro _ [_; _] eq_refl)
        | refine (ex_intro _ [_; _; _] eq_refl)
        | refine (ex_intro _ [_; _; _; _] eq_refl)
        | refine (ex_intro _ [_; _; _; _; _] eq_refl)
        | refine (ex_intro _ [_; _; _; _; _; _] eq_refl)
        | refine (ex_intro _ [_; _; _; _; _; _; _] eq_refl) ].

(** C7: nothing in the script catches an exception.  Whatever call of a run
    raises, be it the image fetch, the encoding and decoding or the API call,
    the run ends there with that exception uncaught: the call is the last
    one made and its exception is the outcome of the run. *)
Theorem failures_propagate (w : World Response) (c : call Response) (e : exn) :
  In c (trace w) ->
  call_result w c = inl e ->
  outcome w = Raise e /\ exists before, trace w = before ++ [c].
Proof.
  by_cases w; intros Hin Hres; in_cases; subst c; cbn [call_result] in Hres;
    try rewrite utf8_decode_b64 in Hres;
    try discriminate; try congruence;
    (split; [congruence | ends_with_last]).
Qed.

(** C8: the script is one straight sequence.  A run reads the credential,
    builds the client, fetches the image, encodes the fetched bytes, decodes
    the encoded bytes to text, calls the API with that text and prints the
    response, in this order; it stops early only at the credential check or
    at a call that raises, and makes no later call then. *)
Theorem runs_are_linear (w : World Response) :
  let token := credential w in
  let read_credential := Call_os_getenv (py "LETTA_API_KEY") in
  let new_client := Call_Letta token in
  let fetch := Call_httpx_get image_url in
  let encode body := Call_standard_b64encode body in
  let decode body := Call_decode_utf8 (Base64.encode body) in
  let request body :=
    Call_messages_create {| client_token := token |} agent_id
      (messages (b64_text body)) in
  (truthy token = false /\
   run w = ([read_credential; Call_print (VStr error_message); Call_exit 1],
            Raise (SystemExit 1)))
  \/
  (truthy token = true /\
   exists e,
     call_result w fetch = inl e /\
     run w = ([read_credential; new_client; fetch], Raise e))
  \/
  (truthy token = true /\
   exists fetched e,
     call_result w fetch = inr fetched /\
     call_result w (request (content fetched)) = inl e /\
     run w = ([read_credential; new_client; fetch; encode (content fetched);
               decode (content fetched); request (content fetched)],
              Raise e))
  \/
  (truthy token = true /\
   exists fetched response,
     call_result w fetch = inr fetched /\
     call_result w (request (content fetched)) = inr response /\
     run w = ([read_credential; new_client; fetch; encode (content fetched);
               decode (content fetched); request (content fetched);
               Call_print (VStr (py "Response:")); Call_print (VResponse response)],
              Return tt)).
Proof.
  cbv zeta. rewrite (run_eq w). unfold run_by_cases. cbn [call_result].
  destruct (truthy (credential w)); cbn [negb].
  - right.
    destruct (httpx_get_result w image_url) as [e | fetched].
    + left. split; [reflexivity|]. exists e. split; reflexivity.
    + right. cbv zeta.
      destruct (messages_create_result w {| client_token := credential w |} agent_id
                  (messages (b64_text (content fetched)))) as [e | response] eqn:Hres.
      * left. split; [reflexivity|]. exists fetched, e. rewrite Hres. auto.
      * right. split; [reflexivity|]. exists fetched, response. rewrite Hres. auto.
  - left. split; reflexivity.
Qed.

(** C9: with [LETTA_API_KEY] set to the empty string the run is the run of a
    world where it is unset: the error message is printed, the exit status is
    non-zero and no network call is made. *)
Theorem empty_credential_as_unset (w w' : World Response) :
  os_environ w (py "LETTA_API_KEY") = Some (py "") ->
  os_environ w' (py "LETTA_API_KEY") = None ->
  run w = run w' /\
  printed (trace w) = [VStr (py "Error: LETTA_API_KEY environment variable not set")] /\
  exit_status (outcome w) <> 0%Z /\
  existsb is_network_call (trace w) = false.
Proof.
  intros H H'.
  assert (Hc : truthy (credential w) = false)
    by (unfold credential, credential_name; now rewrite H).
  assert (Hc' : truthy (credential w') = false)
    by (unfold credential, credential_name; now rewrite H').
  unfold trace, outcome. rewrite (run_eq w), (run_eq w'). unfold run_by_cases.
  rewrite Hc, Hc'. cbn [negb fst snd].
  repeat split. cbn [exit_status]. discriminate.
Qed.

(** C10: two runs with the same credential value and the same fetched bytes
    send the same request: the same client token, agent and messages. *)
Theorem request_is_deterministic (w1 w2 : World Response) (fetched1 fetched2 : HttpResponse) :
  os_environ w1 (py "LETTA_API_KEY") = os_environ w2 (py "LETTA_API_KEY") ->
  httpx_get_result w1 image_url = inr fetched1 ->
  httpx_get_result w2 image_url = inr fetched2 ->
  content fetched1 = content fetched2 ->
  api_requests (trace w1) = api_requests (trace w2).
Proof.
  intros Henv Hget1 Hget2 Hbody.
  assert (Hcred : credential w1 = credential w2)
    by (unfold credential, credential_name; now rewrite Henv).
  unfold trace. rewrite (run_eq w1), (run_eq w2). unfold run_by_cases.
  rewrite Hget1, Hget2, <- Hcred, <- Hbody. cbv zeta.
  destruct (negb (truthy (credential w1))); [reflexivity|].
  destruct (messages_create_result w1 _ _ _), (messages_create_result w2 _ _ _);
    reflexivity.
Qed.

(** * Further properties of the script *)

Lemma credential_string (w : World Response) :
  truthy (credential w) = true ->
  exists t,
    os_environ w (py "LETTA_API_KEY") = Some t /\ t <> [] /\ credential w = VStr t.
Proof.
  unfold credential, credential_name.
  destruct (os_environ w (py "LETTA_API_KEY")) as [t|]; [|discriminate].
  destruct t as [|c t]; [discriminate|].
  intros _. exists (c :: t). repeat split. discriminate.
Qed.

(** X1: the client is only ever built with the credential as it stands in
    the environment, a non-empty string; it is never built with [None] or
    with an empty token. *)
Theorem client_built_from_credential (w : World Response) (token : pyval Response) :
  In (Call_Letta token) (trace w) ->
  exists t,
    os_environ w (py "LETTA_API_KEY") = Some t /\ t <> [] /\ token = VStr t.
Proof.
  by_cases w; intro H; in_cases; try discriminate;
    injection H as <-; now apply credential_string.
Qed.

(** X2: every request to the agent service is made by a client that holds
    the credential of the environment, unchanged. *)
Theorem request_carries_credential (w : World Response) (client : Letta Response)
    (agent : pystr) (msgs : pyval Response) :
  In (Call_messages_create client agent msgs) (trace w) ->
  exists t,
    os_environ w (py "LETTA_API_KEY") = Some t /\ t <> [] /\
    client_token client = VStr t.
Proof.
  intro Hin.
  destruct (api_call_in_trace w client agent msgs Hin) as [fetched [Hc [_ [-> _]]]].
  now apply credential_string.
Qed.

(** X3: nothing is retried.  A run makes at most one HTTP GET and at most one
    API call, and it makes no API call unless it fetched the image URL. *)
Theorem no_call_is_repeated (w : World Response) :
  (List.length (http_gets (trace w)) <= 1)%nat /\
  (List.length (api_requests (trace w)) <= 1)%nat /\
  (api_requests (trace w) = [] \/ http_gets (trace w) = [image_url]).
Proof.
  by_cases w; cbn [http_gets api_requests List.length]; repeat split; auto.
Qed.

(** X4: the UTF-8 decoding of line 14 never raises: whatever bytes are
    decoded in a run, the call returns, with one character for each byte. *)
Theorem utf8_decoding_returns (w : World Response) (b : list byte) :
  In (Call_decode_utf8 b) (trace w) ->
  call_result w (Call_decode_utf8 b) = inr (map Byte.to_N b).
Proof.
  by_cases w; intro H; in_cases; try discriminate;
    injection H as <-; cbn [call_result]; now rewrite utf8_decode_b64.
Qed.

(** X5: the data string of a request is well-formed base64: four characters
    for every three fetched bytes, rounded up, all of them from the base64
    alphabet or the pad. *)
Theorem image_data_well_formed (w : World Response) (fetched : HttpResponse)
    (client : Letta Response) (agent : pystr) (msgs : pyval Response) :
  httpx_get_result w image_url = inr fetched ->
  In (Call_messages_create client agent msgs) (trace w) ->
  exists data,
    payload_image_data msgs = Some data /\
    List.length data = (4 * ((List.length (content fetched) + 2) / 3))%nat /\
    Forall
      (fun cp =>
         In cp (py "ABCDEFGHIJKLMNOPQRSTUVWXYZabcdefghijklmnopqrstuvwxyz0123456789+/="))
      data.
Proof.
  intros Hget Hin.
  destruct (api_call_in_trace w client agent msgs Hin)
    as [fetched' [_ [Hget' [_ [_ ->]]]]].
  rewrite Hget in Hget'. injection Hget' as <-.
  exists (b64_text (content fetched)). split; [reflexivity|]. split.
  - unfold b64_text. rewrite length_map. apply Base64Facts.encode_length.
  - unfold b64_text. apply Forall_map.
    eapply Forall_impl; [|apply Base64Facts.encode_chars].
    intros c Hc.
    change (py "ABCDEFGHIJKLMNOPQRSTUVWXYZabcdefghijklmnopqrstuvwxyz0123456789+/=")
      with (map Byte.to_N (Base64.alphabet ++ [Base64.pad])).
    now apply in_map.
Qed.

(** X6: the request tells the image: two runs that send the same messages
    fetched the same bytes. *)
Theorem same_messages_same_image (w1 w2 : World Response)
    (fetched1 fetched2 : HttpResponse) (client1 client2 : Letta Response)
    (agent1 agent2 : pystr) (msgs : pyval Response) :
  httpx_get_result w1 image_url = inr fetched1 ->
  httpx_get_result w2 image_url = inr fetched2 ->
  In (Call_messages_create client1 agent1 msgs) (trace w1) ->
  In (Call_messages_create client2 agent2 msgs) (trace w2) ->
  content fetched1 = content fetched2.
Proof.
  intros Hget1 Hget2 Hin1 Hin2.
  destruct (api_call_in_trace w1 client1 agent1 msgs Hin1)
    as [f1 [_ [Hget1' [_ [_ Hm1]]]]].
  destruct (api_call_in_trace w2 client2 agent2 msgs Hin2)
    as [f2 [_ [Hget2' [_ [_ Hm2]]]]].
  rewrite Hget1 in Hget1'. injection Hget1' as <-.
  rewrite Hget2 in Hget2'. injection Hget2' as <-.
  rewrite Hm1 in Hm2. apply (f_equal payload_image_data) in Hm2.
  rewrite !payload_image_data_messages in Hm2. injection Hm2 as Htext.
  apply (f_equal Base64.decode) in Htext. unfold b64_text in Htext.
  rewrite !b64_text_roundtrip in Htext. now injection Htext.
Qed.

(** X7: a run that passes the credential check and does not reach its last
    statement prints nothing to standard output. *)
Theorem failed_run_prints_nothing (w : World Response) (token : pystr) :
  os_environ w (py "LETTA_API_KEY") = Some token ->
  token <> [] ->
  outcome w <> Return tt ->
  printed (trace w) = [].
Proof.
  intros H Hne. pose proof (truthy_credential w token H Hne) as Hc.
  by_cases w; try congruence; intros _; reflexivity.
Qed.

(** X8: the script reaches its last statement exactly when the credential is
    a non-empty string, the image fetch returns and the API call returns. *)
Theorem finishes_iff_all_calls_return (w : World Response) :
  outcome w = Return tt <->
  exists token fetched response,
    os_environ w (py "LETTA_API_KEY") = Some token /\
    token <> [] /\
    httpx_get_result w image_url = inr fetched /\
    messages_create_result w {| client_token := VStr token |} agent_id
      (messages (b64_text (content fetched))) = inr response.
Proof.
  split.
  - by_cases w; try discriminate. intros _.
    destruct (credential_string w) as [t [Henv [Hne Hcred]]]; [assumption|].
    exists t, fetched, response. rewrite <- Hcred. auto.
  - intros [token [fetched [response [Henv [Hne [Hget Hres]]]]]].
    pose proof (truthy_credential w token Henv Hne) as Hc.
    assert (Hcred : credential w = VStr token)
      by (unfold credential, credential_name; now rewrite Henv).
    unfold outcome. rewrite (run_eq w). unfold run_by_cases.
    rewrite Hc, Hget. cbv zeta. rewrite Hcred, Hres. reflexivity.
Qed.

(** X9: a run depends on three answers of the world only: the value of
    [LETTA_API_KEY], the result of fetching the image URL and the results of
    the agent service for the fixed agent.  No other environment variable,
    URL or agent matters. *)
Theorem run_reads_three_answers (w1 w2 : World Response) :
  os_environ w1 (py "LETTA_API_KEY") = os_environ w2 (py "LETTA_API_KEY") ->
  httpx_get_result w1 image_url = httpx_get_result w2 image_url ->
  (forall client msgs,
     messages_create_result w1 client agent_id msgs =
     messages_create_result w2 client agent_id msgs) ->
  run w1 = run w2.
Proof.
  intros Henv Hget Hres.
  assert (Hcred : credential w1 = credential w2)
    by (unfold credential, credential_name; now rewrite Henv).
  rewrite (run_eq w1), (run_eq w2). unfold run_by_cases.
  rewrite <- Hcred, <- Hget.
  destruct (httpx_get_result w1 image_url) as [e | fetched]; [reflexivity|].
  cbv zeta. now rewrite Hres.
Qed.

End ScriptProperties.

(** * The theorems on the sample worlds *)

Ltac in_sample_trace := vm_compute; auto 12.

Lemma unset_credential_exits_witness :
  os_environ world_unset (py "LETTA_API_KEY") = None /\
  exit_status (outcome world_unset) <> 0%Z /\
  existsb is_network_call (trace world_unset) = false.
Proof.
  split; [reflexivity|].
  pose proof (unset_credential_exits world_unset eq_refl) as H.
  split; apply H.
Defined.

Lemma payload_data_decodes_to_fetched_witness :
  In (Call_messages_create sample_client agent_id sample_messages) (trace world_ok) /\
  exists data,
    payload_image_data sample_messages = Some data /\
    Base64.decode data = Some jpeg_head.
Proof.
  assert (Hin : In (Call_messages_create sample_client agent_id sample_messages)
                  (trace world_ok)) by in_sample_trace.
  split; [exact Hin|].
  exact (payload_data_decodes_to_fetched world_ok
           {| status_code := 200; content := jpeg_head |}
           sample_client agent_id sample_messages eq_refl Hin).
Defined.

Lemma payload_image_then_text_witness :
  In (Call_messages_create sample_client agent_id sample_messages) (trace world_ok) /\
  exists message image_block text_block,
    sample_messages = VList [message] /\
    content_blocks message = [image_block; text_block] /\
    block_has_type (py "image") image_block = true /\
    block_has_type (py "text") text_block = true /\
    List.length (filter (block_has_type (py "image")) (content_blocks message)) = 1%nat /\
    List.length (filter (block_has_type (py "text")) (content_blocks message)) = 1%nat.
Proof.
  assert (Hin : In (Call_messages_create sample_client agent_id sample_messages)
                  (trace world_ok)) by in_sample_trace.
  split; [exact Hin|].
  exact (payload_image_then_text world_ok sample_client agent_id sample_messages Hin).
Defined.

Lemma api_call_shape_witness :
  In (Call_messages_create sample_client agent_id sample_messages) (trace world_ok) /\
  agent_id = py "agent-bb780791-961a-4fa3-95ba-b681b6d508e6".
Proof.
  assert (Hin : In (Call_messages_create sample_client agent_id sample_messages)
                  (trace world_ok)) by in_sample_trace.
  split; [exact Hin|].
  exact (proj1 (api_call_shape world_ok sample_client agent_id sample_messages Hin)).
Defined.

Lemma one_get_of_fixed_url_witness :
  os_environ world_ok (py "LETTA_API_KEY") = Some (py "sk-let-test") /\
  py "sk-let-test" <> [] /\
  http_gets (trace world_ok) =
  [py "https://upload.wikimedia.org/wikipedia/commons/a/a7/Camponotus_flavomarginatus_ant.jpg"].
Proof.
  assert (Hne : py "sk-let-test" <> []) by (vm_compute; discriminate).
  split; [reflexivity|]. split; [exact Hne|].
  exact (one_get_of_fixed_url world_ok (py "sk-let-test") eq_refl Hne).
Defined.

Lemma response_is_printed_witness :
  In (Call_messages_create sample_client agent_id sample_messages) (trace world_ok) /\
  messages_create_result world_ok sample_client agent_id sample_messages
    = inr "reply"%string /\
  printed (trace world_ok) = [VStr (py "Response:"); VResponse "reply"%string].
Proof.
  assert (Hin : In (Call_messages_create sample_client agent_id sample_messages)
                  (trace world_ok)) by in_sample_trace.
  split; [exact Hin|]. split; [reflexivity|].
  exact (proj1 (response_is_printed world_ok sample_client agent_id sample_messages
                  "reply"%string Hin eq_refl)).
Defined.

Lemma failures_propagate_witness :
  In (Call_httpx_get image_url) (trace world_fetch_fails) /\
  call_result world_fetch_fails (Call_httpx_get image_url) = inl connect_error /\
  outcome world_fetch_fails = Raise connect_error /\
  exists before, trace world_fetch_fails = before ++ [Call_httpx_get image_url].
Proof.
  assert (Hin : In (Call_httpx_get image_url) (trace world_fetch_fails))
    by in_sample_trace.
  split; [exact Hin|]. split; [reflexivity|].
  exact (failures_propagate world_fetch_fails (Call_httpx_get image_url)
           connect_error Hin eq_refl).
Defined.

Lemma empty_credential_as_unset_witness :
  os_environ world_empty (py "LETTA_API_KEY") = Some (py "") /\
  os_environ world_unset (py "LETTA_API_KEY") = None /\
  run world_empty = run world_unset.
Proof.
  split; [reflexivity|]. split; [reflexivity|].
  exact (proj1 (empty_credential_as_unset world_empty world_unset eq_refl eq_refl)).
Defined.

Lemma request_is_deterministic_witness :
  os_environ world_ok (py "LETTA_API_KEY") = os_environ world_ok_too (py "LETTA_API_KEY") /\
  api_requests (trace world_ok) = api_requests (trace world_ok_too).
Proof.
  split; [reflexivity|].
  exact (request_is_deterministic world_ok world_ok_too
           {| status_code := 200; content := jpeg_head |}
           {| status_code := 203; content := jpeg_head |}
           eq_refl eq_refl eq_refl eq_refl).
Defined.

Lemma client_built_from_credential_witness :
  In (Call_Letta (VStr (py "sk-let-test"))) (trace world_ok) /\
  exists t,
    os_environ world_ok (py "LETTA_API_KEY") = Some t /\ t <> [] /\
    VStr (Response := string) (py "sk-let-test") = VStr t.
Proof.
  assert (Hin : In (Call_Letta (VStr (py "sk-let-test"))) (trace world_ok))
    by in_sample_trace.
  split; [exact Hin|].
  exact (client_built_from_credential world_ok (VStr (py "sk-let-test")) Hin).
Defined.

Lemma request_carries_credential_witness :
  In (Call_messages_create sample_client agent_id sample_messages) (trace world_ok) /\
  exists t,
    os_environ world_ok (py "LETTA_API_KEY") = Some t /\ t <> [] /\
    client_token sample_client = VStr t.
Proof.
  assert (Hin : In (Call_messages_create sample_client agent_id sample_messages)
                  (trace world_ok)) by in_sample_trace.
  split; [exact Hin|].
  exact (request_carries_credential world_ok sample_client agent_id sample_messages Hin).
Defined.

Lemma utf8_decoding_returns_witness :
  In (Call_decode_utf8 (Base64.encode jpeg_head)) (trace world_ok) /\
  call_result world_ok (Call_decode_utf8 (Base64.encode jpeg_head))
    = inr (map Byte.to_N (Base64.encode jpeg_head)).
Proof.
  assert (Hin : In (Call_decode_utf8 (Base64.encode jpeg_head)) (trace world_ok))
    by in_sample_trace.
  split; [exact Hin|].
  exact (utf8_decoding_returns world_ok (Base64.encode jpeg_head) Hin).
Defined.

Lemma image_data_well_formed_witness :
  In (Call_messages_create sample_client agent_id sample_messages) (trace world_ok) /\
  exists data,
    payload_image_data sample_messages = Some data /\
    List.length data = (4 * ((List.length jpeg_head + 2) / 3))%nat /\
    Forall
      (fun cp =>
         In cp (py "ABCDEFGHIJKLMNOPQRSTUVWXYZabcdefghijklmnopqrstuvwxyz0123456789+/="))
      data.
Proof.
  assert (Hin : In (Call_messages_create sample_client agent_id sample_messages)
                  (trace world_ok)) by in_sample_trace.
  split; [exact Hin|].
  exact (image_data_well_formed world_ok
           {| status_code := 200; content := jpeg_head |}
           sample_client agent_id sample_messages eq_refl Hin).
Defined.

Lemma same_messages_same_image_witness :
  In (Call_messages_create sample_client agent_id sample_messages) (trace world_ok) /\
  In (Call_messages_create sample_client agent_id sample_messages) (trace world_ok_too) /\
  jpeg_head = jpeg_head.
Proof.
  assert (Hin1 : In (Call_messages_create sample_client agent_id sample_messages)
                   (trace world_ok)) by in_sample_trace.
  assert (Hin2 : In (Call_messages_create sample_client agent_id sample_messages)
                   (trace world_ok_too)) by in_sample_trace.
  split; [exact Hin1|]. split; [exact Hin2|].
  exact (same_messages_same_image world_ok world_ok_too
           {| status_code := 200; content := jpeg_head |}
           {| status_code := 203; content := jpeg_head |}
           sample_client sample_client agent_id agent_id sample_messages
           eq_refl eq_refl Hin1 Hin2).
Defined.

Lemma failed_run_prints_nothing_witness :
  os_environ world_fetch_fails (py "LETTA_API_KEY") = Some (py "sk-let-test") /\
  outcome world_fetch_fails <> Return tt /\
  printed (trace world_fetch_fails) = [].
Proof.
  assert (Hne : py "sk-let-test" <> []) by (vm_compute; discriminate).
  assert (Hout : outcome world_fetch_fails <> Return tt) by (vm_compute; discriminate).
  split; [reflexivity|]. split; [exact Hout|].
  exact (failed_run_prints_nothing world_fetch_fails (py "sk-let-test") eq_refl Hne Hout).
Defined.

Lemma run_reads_three_answers_witness :
  os_environ world_ok (py "LETTA_API_KEY") = os_environ world_busy (py "LETTA_API_KEY") /\
  httpx_get_result world_ok image_url = httpx_get_result world_busy image_url /\
  run world_ok = run world_busy.
Proof.
  split; [reflexivity|]. split; [reflexivity|].
  exact (run_reads_three_answers world_ok world_busy eq_refl eq_refl
           (fun _ _ => eq_refl)).
Defined.
